(** * The patrol-robot dashboard: [static/js/main.js] and [static/js/auth.js]

    A shallow embedding of the two browser scripts.  A script function that
    touches the page becomes a computation over an explicit [State]; an
    [async] function is cut at every [await] into the pieces the event loop
    runs one after the other, so that two polls in flight can interleave
    exactly as they do in the browser. *)

From Stdlib Require Import ZArith Ascii String DecimalString.
From stdpp Require Import base option strings list gmap.

Set Warnings "-register-all".

(** ** Values produced by [res.json()] *)

Section Values.
Context {Num : Type}.

(** What [JSON.parse] can build, plus [undefined] for a property that is
    not there.  [JObj] lists the members in the order of the body text. *)
Inductive JsValue : Type :=
| JUndefined
| JNull
| JBool (b : bool)
| JNum (n : Num)
| JStr (s : string)
| JObj (members : list (string * JsValue))
| JArr (items : list JsValue).

(** The own property [k] of a parsed object: when the body text repeats a
    key, [JSON.parse] keeps the last one. *)
Fixpoint own_property (k : string) (members : list (string * JsValue))
  : option JsValue :=
  match members with
  | [] => None
  | (k', v) :: rest =>
      match own_property k rest with
      | Some w => Some w
      | None => if decide (k' = k) then Some v else None
      end
  end.
End Values.

Arguments JsValue Num : clear implicits.

(** [Number::toString] is the runtime's; the development is parametric in
    the number type and in that conversion. *)
Class JsNumber (Num : Type) := {
  num_to_string : Num -> string
}.

(** Leaflet is an external collaborator, known here by its interface.
    [latLng lat lon] is what [L.marker([lat, lon])] makes of its argument:
    the coordinates of the new marker, or [None] when Leaflet refuses them,
    which is taken to be an exception thrown before the map is touched.
    Two numbers are taken as they are. *)
Class Leaflet (Num : Type) := {
  latLng : JsValue Num -> JsValue Num -> option (Num * Num);
  latLng_numbers : forall a b : Num, latLng (JNum a) (JNum b) = Some (a, b)
}.

Section Conversions.
Context {Num : Type} `{!JsNumber Num}.

(** [ToString], as a template literal or a DOMString attribute applies it.
    [None] is the [TypeError] of an object that cannot be converted: a
    parsed object with an own member [toString] hides the inherited
    method behind a value that cannot be called. *)
Fixpoint ToString (v : JsValue Num) : option string :=
  match v with
  | JUndefined => Some "undefined"
  | JNull => Some "null"
  | JBool b => Some (if b then "true" else "false")
  | JNum n => Some (num_to_string n)
  | JStr s => Some s
  | JObj members =>
      match own_property "toString" members with
      | Some _ => None
      | None => Some "[object Object]"
      end
  | JArr items =>
      String.concat "," <$>
        (fix join (l : list (JsValue Num)) : option (list string) :=
           match l with
           | [] => Some []
           | x :: rest =>
               match (match x with
                      | JUndefined | JNull => Some EmptyString
                      | _ => ToString x
                      end) with
               | None => None
               | Some sx =>
                   match join rest with
                   | None => None
                   | Some srest => Some (sx :: srest)
                   end
               end
           end) items
  end.

(** A DOMString attribute declared [LegacyNullToEmptyString], such as
    [innerText]: [null] is written as the empty string. *)
Definition ToDOMString_null_empty (v : JsValue Num) : option string :=
  match v with
  | JNull => Some EmptyString
  | _ => ToString v
  end.
End Conversions.

(** ** The browser state the scripts act on *)

(** Failures a script can raise.  [NetworkError] is the rejection of
    [fetch], [SyntaxError] the rejection of [res.json()] on a body that is
    not JSON, [LeafletError] an exception thrown inside Leaflet. *)
Inductive JsError := TypeError | SyntaxError | NetworkError | LeafletError.

(** An element of the page, found by its id. [form_data] is the entry list
    [new FormData(el)] collects when the element is a form. *)
Record Element := {
  innerText : string;
  value : string;
  form_data : option (list (string * string))
}.

Inductive Method := GET | POST.

(** A call of [fetch(url, init)]. *)
Record Request := {
  method : Method;
  url : string;
  headers : list (string * string);
  form_body : option (list (string * string))
}.

(** Which [async] function is waiting. *)
Inductive Caller := StatusPoll | LoginSubmit.

Section Browser.
Context {Num : Type}.

(** A response as the scripts see it: [status], and what [res.json()]
    settles to ([None]: the body is not JSON). *)
Record Response := {
  status : Z;
  json : option (JsValue Num)
}.

(** [res.ok] *)
Definition ok (res : Response) : bool :=
  (200 <=? status res)%Z && (status res <=? 299)%Z.

Inductive Await :=
| AwaitFetch (c : Caller)
| AwaitJson (c : Caller) (res : Response).

Inductive LayerKind :=
| TileLayer (template : string)
| Marker (lat lng : Num).

(** A layer object; [stamp] is the identity Leaflet gives it. *)
Record Layer := {
  stamp : nat;
  kind : LayerKind
}.

Record State := {
  localStorage : gmap string string;
  document : gmap string Element;
  (** values assigned to [window.location.href], oldest first *)
  location : list string;
  (** the layers on [map] *)
  map_layers : list Layer;
  (** the variable [marker] of main.js *)
  marker : option Layer;
  next_stamp : nat;
  (** every [fetch] issued, oldest first; a request is named by its index *)
  requests : list Request;
  (** the [async] calls suspended at an [await], by request *)
  pending : gmap nat Await;
  (** rejections nobody handles, oldest first *)
  unhandled : list JsError
}.

Definition with_localStorage (f : gmap string string -> gmap string string)
    (s : State) : State :=
  {| localStorage := f (localStorage s); document := document s;
     location := location s; map_layers := map_layers s;
     marker := marker s; next_stamp := next_stamp s;
     requests := requests s; pending := pending s;
     unhandled := unhandled s |}.

Definition with_document (f : gmap string Element -> gmap string Element)
    (s : State) : State :=
  {| localStorage := localStorage s; document := f (document s);
     location := location s; map_layers := map_layers s;
     marker := marker s; next_stamp := next_stamp s;
     requests := requests s; pending := pending s;
     unhandled := unhandled s |}.

Definition with_location (f : list string -> list string) (s : State)
  : State :=
  {| localStorage := localStorage s; document := document s;
     location := f (location s); map_layers := map_layers s;
     marker := marker s; next_stamp := next_stamp s;
     requests := requests s; pending := pending s;
     unhandled := unhandled s |}.

Definition with_map_layers (f : list Layer -> list Layer) (s : State)
  : State :=
  {| localStorage := localStorage s; document := document s;
     location := location s; map_layers := f (map_layers s);
     marker := marker s; next_stamp := next_stamp s;
     requests := requests s; pending := pending s;
     unhandled := unhandled s |}.

Definition with_marker (m : option Layer) (s : State) : State :=
  {| localStorage := localStorage s; document := document s;
     location := location s; map_layers := map_layers s;
     marker := m; next_stamp := next_stamp s;
     requests := requests s; pending := pending s;
     unhandled := unhandled s |}.

Definition with_next_stamp (n : nat) (s : State) : State :=
  {| localStorage := localStorage s; document := document s;
     location := location s; map_layers := map_layers s;
     marker := marker s; next_stamp := n;
     requests := requests s; pending := pending s;
     unhandled := unhandled s |}.

Definition with_requests (f : list Request -> list Request) (s : State)
  : State :=
  {| localStorage := localStorage s; document := document s;
     location := location s; map_layers := map_layers s;
     marker := marker s; next_stamp := next_stamp s;
     requests := f (requests s); pending := pending s;
     unhandled := unhandled s |}.

Definition with_pending (f : gmap nat Await -> gmap nat Await) (s : State)
  : State :=
  {| localStorage := localStorage s; document := document s;
     location := location s; map_layers := map_layers s;
     marker := marker s; next_stamp := next_stamp s;
     requests := requests s; pending := f (pending s);
     unhandled := unhandled s |}.

Definition with_unhandled (f : list JsError -> list JsError) (s : State)
  : State :=
  {| localStorage := localStorage s; document := document s;
     location := location s; map_layers := map_layers s;
     marker := marker s; next_stamp := next_stamp s;
     requests := requests s; pending := pending s;
     unhandled := f (unhandled s) |}.

(** *** Statements that may throw

    A statement runs on the state and either completes with a value or
    throws; what it wrote before throwing stays written. *)
Definition Js (A : Type) : Type := State -> State * (JsError + A).

Definition ret {A} (a : A) : Js A := fun s => (s, inr a).
Definition throw {A} (e : JsError) : Js A := fun s => (s, inl e).
Definition bind {A B} (m : Js A) (k : A -> Js B) : Js B :=
  fun s =>
    match m s with
    | (s', inl e) => (s', inl e)
    | (s', inr a) => k a s'
    end.
Definition gets {A} (f : State -> A) : Js A := fun s => (s, inr (f s)).
Definition modify (f : State -> State) : Js unit := fun s => (f s, inr tt).
Definition lift_option {A} (e : JsError) (o : option A) : Js A :=
  match o with Some a => ret a | None => throw e end.
End Browser.

Arguments Response Num : clear implicits.
Arguments Await Num : clear implicits.
Arguments LayerKind Num : clear implicits.
Arguments Layer Num : clear implicits.
Arguments State Num : clear implicits.
Arguments Js Num A : clear implicits.

Notation "'let*' x ':=' m 'in' k" := (bind m (fun x => k))
  (at level 10, x name, m at level 100, k at level 200).
Notation "m ';;;' k" := (bind m (fun _ => k))
  (at level 100, k at level 200, right associativity).

(** ** The scripts *)

Section Scripts.
Context {Num : Type} `{!JsNumber Num} `{!Leaflet Num}.

(** *** Browser and Leaflet calls the scripts make *)

(** [document.getElementById(id)]: the element, named by its id, or
    [None] for [null]. *)
Definition getElementById (id : string) : Js Num (option string) :=
  gets (fun s => match document s !! id with
                 | Some _ => Some id
                 | None => None
                 end).

Definition write_innerText (text : string) (e : Element) : Element :=
  {| innerText := text; value := value e; form_data := form_data e |}.

(** [el.innerText = v]; a [TypeError] when [el] is [null]. *)
Definition set_innerText (el : option string) (v : JsValue Num)
  : Js Num unit :=
  let* id := lift_option TypeError el in
  let* text := lift_option TypeError (ToDOMString_null_empty v) in
  modify (with_document (alter (write_innerText text) id)).

(** [el.value]; a [TypeError] when [el] is [null]. *)
Definition get_value (el : option string) : Js Num string :=
  let* id := lift_option TypeError el in
  let* e := gets (fun s => document s !! id) in
  lift_option TypeError (value <$> e).

(** [new FormData(el)]; a [TypeError] unless [el] is a form. *)
Definition new_FormData (el : option string)
  : Js Num (list (string * string)) :=
  let* id := lift_option TypeError el in
  let* e := gets (fun s => document s !! id) in
  lift_option TypeError (e ≫= form_data).

(** [data.k], for the names the scripts read ([battery], [lat], [lon],
    [access_token]), which no built-in prototype defines: the own member
    of an object, [undefined] on any other value, and a [TypeError] on
    [null]. *)
Definition get_property (data : JsValue Num) (k : string)
  : Js Num (JsValue Num) :=
  match data with
  | JUndefined | JNull => throw TypeError
  | JObj members => ret (default JUndefined (own_property k members))
  | _ => ret JUndefined
  end.

Definition getItem (k : string) : Js Num (option string) :=
  gets (fun s => localStorage s !! k).
Definition setItem (k v : string) : Js Num unit :=
  modify (with_localStorage <[k := v]>).
Definition removeItem (k : string) : Js Num unit :=
  modify (with_localStorage (delete k)).

(** [window.location.href = target] *)
Definition set_href (target : string) : Js Num unit :=
  modify (with_location (fun l => l ++ [target])).

(** [fetch(url, init)], for the [init] objects the scripts build: the
    request goes out, and the call returns at once with a promise, named
    here by the index of the request. *)
Definition fetch (req : Request) : Js Num nat :=
  fun s => (with_requests (fun l => l ++ [req]) s, inr (length (requests s))).

(** [await fetch(url, init)] inside the [async] function [c]. *)
Definition await_fetch (c : Caller) (req : Request) : Js Num unit :=
  let* i := fetch req in
  modify (with_pending <[i := AwaitFetch c]>).

(** [map.removeLayer(l)] *)
Definition removeLayer (l : Layer Num) : Js Num unit :=
  modify (with_map_layers (filter (fun x => stamp x ≠ stamp l))).

(** [layer.addTo(map)], the layer getting its stamp on the way. *)
Definition addTo (k : LayerKind Num) : Js Num (Layer Num) :=
  fun s =>
    let l := {| stamp := next_stamp s; kind := k |} in
    (with_next_stamp (S (next_stamp s))
       (with_map_layers (fun ls => ls ++ [l]) s), inr l).

(** [L.marker([lat, lon])] *)
Definition L_marker (lat lon : JsValue Num) : Js Num (LayerKind Num) :=
  let* c := lift_option LeafletError (latLng lat lon) in
  ret (Marker (fst c) (snd c)).

(** The template literal [`Bearer ${token}`]; [getItem] gives [null] for
    a key that is not stored, and [null] prints as [null]. *)
Definition bearer (token : option string) : string :=
  "Bearer " +:+ default "null" token.

(** *** main.js *)

Definition status_url : string := "http://localhost:8000/robot/status".
Definition start_url : string := "http://localhost:8000/robot/start".
Definition return_url : string := "http://localhost:8000/robot/return".

(** [loadRobotStatus], lines 8-11: up to [await fetch(...)]. *)
Definition loadRobotStatus : Js Num unit :=
  let* token := getItem "token" in
  await_fetch StatusPoll
    {| method := GET; url := status_url;
       headers := [("Authorization", bearer token)];
       form_body := None |}.

(** [loadRobotStatus], line 12: [fetch] has settled, [res.json()] is
    awaited next.  [res.ok] is not looked at. *)
Definition loadRobotStatus_res (r : option (Response Num))
  : Js Num (option (Await Num)) :=
  let* res := lift_option NetworkError r in
  ret (Some (AwaitJson StatusPoll res)).

(** [loadRobotStatus], lines 12-18: [res.json()] has settled. *)
Definition loadRobotStatus_data (res : Response Num)
  : Js Num (option (Await Num)) :=
  let* data := lift_option SyntaxError (json res) in
  (* line 14 *)
  let* el := getElementById "battery" in
  let* battery := get_property data "battery" in
  set_innerText el battery ;;;
  (* line 15 *)
  let* el := getElementById "position" in
  let* lat := get_property data "lat" in
  let* slat := lift_option TypeError (ToString lat) in
  let* lon := get_property data "lon" in
  let* slon := lift_option TypeError (ToString lon) in
  set_innerText el (JStr (slat +:+ ", " +:+ slon)) ;;;
  (* line 17 *)
  let* m := gets marker in
  match m with
  | Some l => removeLayer l
  | None => ret tt
  end ;;;
  (* line 18 *)
  let* lat := get_property data "lat" in
  let* lon := get_property data "lon" in
  let* mk := L_marker lat lon in
  let* l := addTo mk in
  modify (with_marker (Some l)) ;;;
  ret None.

(** [startPatrol]: the promise of [fetch] is dropped. *)
Definition startPatrol : Js Num unit :=
  let* token := getItem "token" in
  let* _p := fetch {| method := POST; url := start_url;
                     headers := [("Authorization", bearer token)];
                     form_body := None |} in
  ret tt.

(** [returnBase] *)
Definition returnBase : Js Num unit :=
  let* token := getItem "token" in
  let* _p := fetch {| method := POST; url := return_url;
                     headers := [("Authorization", bearer token)];
                     form_body := None |} in
  ret tt.

(** [logout] *)
Definition logout : Js Num unit :=
  removeItem "token" ;;;
  set_href "login.html".

(** *** auth.js *)

Definition API_URL : string := "http://13.125.247.94:8000".

Definition login_failed_message : string := "로그인 실패!".

(** The click handler of [loginBtn], lines 4-12: up to [await fetch]. *)
Definition loginBtn_click : Js Num unit :=
  let* el := getElementById "username" in
  let* _username := get_value el in
  let* el := getElementById "password" in
  let* _password := get_value el in
  let* el := getElementById "login-form" in
  let* formData := new_FormData el in
  await_fetch LoginSubmit
    {| method := POST; url := API_URL +:+ "/login";
       headers := [];
       form_body := Some formData |}.

(** The handler, lines 14-19: [fetch] has settled. *)
Definition loginBtn_click_res (r : option (Response Num))
  : Js Num (option (Await Num)) :=
  let* res := lift_option NetworkError r in
  if ok res then ret (Some (AwaitJson LoginSubmit res))
  else
    let* el := getElementById "message" in
    set_innerText el (JStr login_failed_message) ;;;
    ret None.

(** The handler, lines 15-17: [res.json()] has settled. *)
Definition loginBtn_click_data (res : Response Num)
  : Js Num (option (Await Num)) :=
  let* data := lift_option SyntaxError (json res) in
  let* tok := get_property data "access_token" in
  let* v := lift_option TypeError (ToString tok) in
  setItem "token" v ;;;
  set_href "main.html" ;;;
  ret None.
End Scripts.

(** ** The event loop *)

(** What the browser can hand to the scripts: a tick of the 5-second timer,
    a click on one of the buttons, and the settling of a promise a script
    is waiting on ([FetchSettle i None] is a network failure). *)
Inductive Event {Num : Type} :=
| Tick
| ClickStart
| ClickReturn
| ClickLogout
| ClickLogin
| FetchSettle (i : nat) (r : option (Response Num))
| BodySettle (i : nat).

Arguments Event Num : clear implicits.

Section EventLoop.
Context {Num : Type} `{!JsNumber Num} `{!Leaflet Num}.

(** A callback runs to its first [await] or to its end; an exception it
    lets out (or the rejection of the promise it returned) is reported
    and handled by nobody. *)
Definition call (f : Js Num unit) (s : State Num) : State Num :=
  match f s with
  | (s', inl e) => with_unhandled (fun l => l ++ [e]) s'
  | (s', inr _) => s'
  end.

(** The [async] function waiting on promise [i] runs on, to its next
    [await] or to its end. *)
Definition resume (i : nat) (k : Js Num (option (Await Num)))
    (s : State Num) : State Num :=
  match k (with_pending (delete i) s) with
  | (s', inl e) => with_unhandled (fun l => l ++ [e]) s'
  | (s', inr None) => s'
  | (s', inr (Some aw)) => with_pending <[i := aw]> s'
  end.

Definition step (s : State Num) (e : Event Num) : State Num :=
  match e with
  | Tick => call loadRobotStatus s
  | ClickStart => call startPatrol s
  | ClickReturn => call returnBase s
  | ClickLogout => call logout s
  | ClickLogin => call loginBtn_click s
  | FetchSettle i r =>
      match pending s !! i with
      | Some (AwaitFetch StatusPoll) => resume i (loadRobotStatus_res r) s
      | Some (AwaitFetch LoginSubmit) => resume i (loginBtn_click_res r) s
      | _ => s
      end
  | BodySettle i =>
      match pending s !! i with
      | Some (AwaitJson StatusPoll res) =>
          resume i (loadRobotStatus_data res) s
      | Some (AwaitJson LoginSubmit res) =>
          resume i (loginBtn_click_data res) s
      | _ => s
      end
  end.

Definition run (s : State Num) (es : list (Event Num)) : State Num :=
  fold_left step es s.

Definition tile_template : string :=
  "https://{s}.tile.openstreetmap.org/{z}/{x}/{y}.png".

(** The top level of main.js: the map on the element [map] (Leaflet
    throws when there is none), the tile layer, [marker = null], the
    timer, and the first call of [loadRobotStatus]. *)
Definition main_js : Js Num unit :=
  let* el := getElementById "map" in
  let* _container := lift_option LeafletError el in
  modify (with_map_layers (fun _ => [])) ;;;
  let* _tiles := addTo (TileLayer tile_template) in
  modify (with_marker None) ;;;
  modify (call loadRobotStatus).


(** One whole poll with nothing in between: the timer fires, [fetch]
    settles with [r], then the body settles. *)
Definition poll (s : State Num) (r : option (Response Num)) : State Num :=
  run s [Tick; FetchSettle (length (requests s)) r;
         BodySettle (length (requests s))].

(** *** What the page shows *)

Definition text_of (id : string) (s : State Num) : option string :=
  innerText <$> document s !! id.

Definition is_marker (l : Layer Num) : bool :=
  match kind l with
  | Marker _ _ => true
  | TileLayer _ => false
  end.

(** The markers on the map. *)
Definition markers (s : State Num) : list (Layer Num) :=
  filter (fun l => is_marker l = true) (map_layers s).


(** The page has the two text fields. *)
Definition has_fields (s : State Num) : Prop :=
  is_Some (document s !! "battery") /\ is_Some (document s !! "position").

(** A poll awaits nothing of the login flow. *)
Definition poll_await (a : option (Await Num)) : Prop :=
  a = Some (AwaitFetch StatusPoll) \/
  exists res, a = Some (AwaitJson StatusPoll res).



(** The request [startPatrol] and [returnBase] hand to [fetch], for the
    path [u]. *)
Definition command_request (u : string) (s : State Num) : Request :=
  {| method := POST; url := u;
     headers := [("Authorization", bearer (localStorage s !! "token"))];
     form_body := None |}.

(** The layers line 17 leaves on the map. *)
Definition without_marker (m : option (Layer Num)) (ls : list (Layer Num))
  : list (Layer Num) :=
  match m with
  | Some l => filter (fun x => stamp x ≠ stamp l) ls
  | None => ls
  end.



(** At most one marker on the map, and [marker] holds it. *)
Definition marker_inv (s : State Num) : Prop :=
  markers s = [] \/ exists m, marker s = Some m /\ markers s = [m].

(** The login page has the two inputs and the form the handler reads. *)
Definition has_login_form (s : State Num) : Prop :=
  is_Some (document s !! "username") /\
  is_Some (document s !! "password") /\
  exists el entries,
    document s !! "login-form" = Some el /\ form_data el = Some entries.

(** No call of the login handler is in flight. *)
Definition login_free (s : State Num) : Prop :=
  forall i a, pending s !! i = Some a -> poll_await (Some a).

(** The events of the dashboard other than logout: the timer, the two
    command buttons, and the settling of promises. *)
Definition dashboard_event (e : Event Num) : Prop :=
  match e with
  | ClickLogout | ClickLogin => False
  | _ => True
  end.

(** The tile layer line 3 of main.js puts on the map. *)
Definition tile_layer (t : nat) : Layer Num :=
  {| stamp := t; kind := TileLayer tile_template |}.


(** The events that call [fetch] on the dashboard. *)
Definition issues_request (e : Event Num) : bool :=
  match e with
  | Tick | ClickStart | ClickReturn => true
  | _ => false
  end.



End EventLoop.

(** ** A concrete runtime for examples

    Whole numbers as the number type, printed in decimal, and a Leaflet
    that makes a marker of two numbers and throws on anything else. *)

Definition Z_to_string (z : Z) : string :=
  NilZero.string_of_int (Z.to_int z).

#[export] Instance Z_number : JsNumber Z := {| num_to_string := Z_to_string |}.

Definition latLng_strict (lat lon : JsValue Z) : option (Z * Z) :=
  match lat, lon with
  | JNum a, JNum b => Some (a, b)
  | _, _ => None
  end.

#[export] Instance Z_leaflet : Leaflet Z :=
  {| latLng := latLng_strict; latLng_numbers := fun a b => eq_refl |}.

Definition text_element (text : string) : Element :=
  {| innerText := text; value := EmptyString; form_data := None |}.

Definition input_element (v : string) : Element :=
  {| innerText := EmptyString; value := v; form_data := None |}.

Definition form_element (entries : list (string * string)) : Element :=
  {| innerText := EmptyString; value := EmptyString;
     form_data := Some entries |}.

(** The dashboard page, showing a first snapshot, with token [T0] stored. *)
Definition dashboard : State Z :=
  {| localStorage := {["token" := "T0"]};
     document := <["map" := text_element EmptyString]>
                 (<["battery" := text_element "87"]>
                  {["position" := text_element "37, 127"]});
     location := [];
     map_layers := [ {| stamp := 0; kind := TileLayer tile_template |};
                     {| stamp := 1; kind := Marker 37%Z 127%Z |} ];
     marker := Some {| stamp := 1; kind := Marker 37%Z 127%Z |};
     next_stamp := 2;
     requests := [];
     pending := ∅;
     unhandled := [] |}.

(** The same page with nothing stored. *)
Definition dashboard_logged_out : State Z :=
  with_localStorage (fun _ => ∅) dashboard.

(** The login page, with [ops] / [secret] typed in and nothing stored. *)
Definition login_page : State Z :=
  {| localStorage := ∅;
     document :=
       <["username" := input_element "ops"]>
       (<["password" := input_element "secret"]>
        (<["login-form" := form_element [("username", "ops");
                                         ("password", "secret")]]>
         {["message" := text_element EmptyString]}));
     location := [];
     map_layers := [];
     marker := None;
     next_stamp := 0;
     requests := [];
     pending := ∅;
     unhandled := [] |}.

Definition unauthorized : Response Z :=
  {| status := 401%Z;
     json := Some (JObj [("detail", JStr "Not authenticated")]) |}.

Definition battery_only : Response Z :=
  {| status := 200%Z; json := Some (JObj [("battery", JNum 50%Z)]) |}.

Definition snapshot (battery lat lon : Z) : Response Z :=
  {| status := 200%Z;
     json := Some (JObj [("battery", JNum battery); ("lat", JNum lat);
                         ("lon", JNum lon)]) |}.

Definition token_response (t : string) : Response Z :=
  {| status := 200%Z; json := Some (JObj [("access_token", JStr t)]) |}.

(** ** Properties *)

Section Properties.
Context {Num : Type} `{!JsNumber Num} `{!Leaflet Num}.
Implicit Types (s : State Num) (res : Response Num) (e : Event Num).

(** C7. [logout] removes the stored token and then assigns the login view to
    [window.location.href], once, whatever the state: it sends no request
    and throws nothing, and reading the token afterwards gives [null]. *)
Theorem logout_clears_token_then_navigates s :
  step s ClickLogout
    = with_location (fun l => l ++ ["login.html"])
        (with_localStorage (delete "token") s) /\
  location (step s ClickLogout) = location s ++ ["login.html"] /\
  requests (step s ClickLogout) = requests s /\
  unhandled (step s ClickLogout) = unhandled s /\
  getItem "token" (step s ClickLogout) = (step s ClickLogout, inr None).
Proof.
  repeat split.
  unfold getItem, gets. cbn. by rewrite lookup_delete_eq.
Qed.

(** C6. With no token stored, a poll still sends its GET request and throws
    nothing: the Authorization header reads [Bearer null], which carries no
    token, and the call is left waiting for the response. *)
Theorem poll_without_token_still_sent s :
  localStorage s !! "token" = None ->
  step s Tick
    = with_pending <[length (requests s) := AwaitFetch StatusPoll]>
        (with_requests
           (fun l => l ++ [ {| method := GET; url := status_url;
                               headers := [("Authorization", "Bearer null")];
                               form_body := None |} ]) s) /\
  unhandled (step s Tick) = unhandled s /\
  pending (step s Tick) !! length (requests s) = Some (AwaitFetch StatusPoll).
Proof.
  intros Hnone.
  assert (Hstep : step s Tick
    = with_pending <[length (requests s) := AwaitFetch StatusPoll]>
        (with_requests
           (fun l => l ++ [ {| method := GET; url := status_url;
                               headers := [("Authorization", "Bearer null")];
                               form_body := None |} ]) s)).
  { cbn. unfold call, loadRobotStatus, bind, getItem, gets. cbn.
    by rewrite Hnone. }
  rewrite Hstep. repeat split. cbn. apply lookup_insert_eq.
Qed.

(** *** What a step of a poll leaves alone *)

Ltac run_js :=
  unfold loadRobotStatus_data, loadRobotStatus_res, loginBtn_click_res,
    loginBtn_click_data, loginBtn_click, loadRobotStatus, startPatrol,
    returnBase, logout, await_fetch, fetch, set_innerText, get_value,
    new_FormData, get_property, getElementById, getItem, setItem, removeItem,
    set_href, removeLayer, addTo, L_marker, bind, gets, modify, lift_option,
    ret, throw in *.

Ltac split_js :=
  repeat (cbn in *;
          match goal with
          | |- context [match ?x with _ => _ end] =>
              lazymatch x with
              | context [match _ with _ => _ end] => fail
              | _ => destruct x eqn:?
              end
          end);
  cbn in *.

(** The parts of the state the rest of a poll never writes. *)
Lemma loadRobotStatus_data_frame res s :
  localStorage (loadRobotStatus_data res s).1 = localStorage s /\
  requests (loadRobotStatus_data res s).1 = requests s /\
  location (loadRobotStatus_data res s).1 = location s /\
  pending (loadRobotStatus_data res s).1 = pending s /\
  unhandled (loadRobotStatus_data res s).1 = unhandled s.
Proof. run_js. split_js; done. Qed.

(** A request logged in the meantime changes nothing in what the rest of
    a poll does. *)
Lemma loadRobotStatus_data_requests res f s :
  loadRobotStatus_data res (with_requests f s)
    = (with_requests f (loadRobotStatus_data res s).1,
       (loadRobotStatus_data res s).2).
Proof. run_js. split_js; done. Qed.

(** A command, whatever the state it is clicked in. *)
Lemma step_command s :
  step s ClickStart
    = with_requests (fun l => l ++ [command_request start_url s]) s /\
  step s ClickReturn
    = with_requests (fun l => l ++ [command_request return_url s]) s.
Proof. done. Qed.



(** *** A poll step by step *)

Lemma step_tick s :
  step s Tick
    = with_pending <[length (requests s) := AwaitFetch StatusPoll]>
        (with_requests
           (fun l => l ++ [ {| method := GET; url := status_url;
                               headers := [("Authorization",
                                            bearer (localStorage s !! "token"))];
                               form_body := None |} ]) s).
Proof. done. Qed.

Lemma step_fetch_poll s i r :
  pending s !! i = Some (AwaitFetch StatusPoll) ->
  step s (FetchSettle i r)
    = match r with
      | Some res =>
          with_pending (fun p => <[i := AwaitJson StatusPoll res]> (delete i p)) s
      | None =>
          with_unhandled (fun l => l ++ [NetworkError])
            (with_pending (delete i) s)
      end.
Proof. intros Hp. cbn. rewrite Hp. by destruct r. Qed.

Lemma step_body_poll s i res :
  pending s !! i = Some (AwaitJson StatusPoll res) ->
  step s (BodySettle i)
    = resume i (loadRobotStatus_data res) s.
Proof. intros Hp. cbn. by rewrite Hp. Qed.



Lemma poll_some s res :
  poll s (Some res)
    = resume (length (requests s)) (loadRobotStatus_data res)
        (with_pending
           (fun p => <[length (requests s) := AwaitJson StatusPoll res]>
                       (delete (length (requests s)) p))
           (step s Tick)).
Proof.
  unfold poll, run. cbn [fold_left].
  rewrite (step_fetch_poll (step s Tick))
    by (rewrite step_tick; cbn; apply lookup_insert_eq).
  rewrite (step_body_poll _ (length (requests s)) res)
    by (cbn; apply lookup_insert_eq).
  reflexivity.
Qed.

Lemma poll_none s :
  poll s None
    = with_unhandled (fun l => l ++ [NetworkError])
        (with_pending (delete (length (requests s))) (step s Tick)).
Proof.
  unfold poll, run. cbn [fold_left].
  rewrite (step_fetch_poll (step s Tick) (length (requests s)) None)
    by (rewrite step_tick; cbn; apply lookup_insert_eq).
  cbn. by rewrite lookup_delete_eq.
Qed.

(** What the page shows after a resumed function is what the function
    left. *)
Lemma resume_shows i k s :
  document (resume i k s) = document (k (with_pending (delete i) s)).1 /\
  map_layers (resume i k s) = map_layers (k (with_pending (delete i) s)).1 /\
  marker (resume i k s) = marker (k (with_pending (delete i) s)).1.
Proof.
  unfold resume. destruct (k _) as [s' [err | [aw |]]]; done.
Qed.

(** A poll that fails before line 14 has written nothing. *)
Lemma loadRobotStatus_data_early res s :
  json res = None \/ json res = Some JNull ->
  exists err, loadRobotStatus_data res s = (s, inl err).
Proof.
  intros [Hj | Hj]; unfold loadRobotStatus_data, bind at 1; rewrite Hj; cbn.
  - eauto.
  - unfold bind, getElementById, gets. cbn. eauto.
Qed.

(** Line 14 on a numeric [battery]: whatever the later lines do, the text
    of the battery field is the number's string. *)
Lemma loadRobotStatus_data_battery s res members b :
  json res = Some (JObj members) ->
  own_property "battery" members = Some (JNum b) ->
  is_Some (document s !! "battery") ->
  text_of "battery" (loadRobotStatus_data res s).1 = Some (num_to_string b).
Proof.
  intros Hj Hbat [eb Hb].
  unfold loadRobotStatus_data, bind at 1. rewrite Hj. cbn.
  unfold bind at 1. unfold getElementById at 1, gets. rewrite Hb.
  unfold bind at 1. cbn. rewrite Hbat. cbn.
  run_js. split_js; unfold text_of; cbn;
    repeat (rewrite lookup_alter_eq || rewrite lookup_alter_ne by done);
    by rewrite Hb.
Qed.

(** C5. After a [loadRobotStatus] whose response body is an object with a
    numeric [battery], the battery field of the page reads exactly the
    string the runtime converts that number to: the value is assigned to
    [innerText] as it came, with no arithmetic and no formatting between. *)
Theorem battery_text_is_number_to_string s res members b :
  json res = Some (JObj members) ->
  own_property "battery" members = Some (JNum b) ->
  is_Some (document s !! "battery") ->
  text_of "battery" (poll s (Some res)) = Some (num_to_string b).
Proof.
  intros Hj Hbat Hel. rewrite poll_some. unfold text_of.
  destruct (resume_shows (length (requests s)) (loadRobotStatus_data res)
              (with_pending
                 (fun p => <[length (requests s) := AwaitJson StatusPoll res]>
                             (delete (length (requests s)) p))
                 (step s Tick))) as [-> _].
  by apply (loadRobotStatus_data_battery _ res members b).
Qed.

(** C1, amended. A [loadRobotStatus] that fails before line 14 — [fetch]
    rejects (network error), the body is not JSON, or the body is [null] —
    leaves every text of the page, the layers of the map and [marker] as
    they were, and ends in one unhandled rejection. *)
Theorem failed_poll_before_first_write s r :
  r = None \/
  (exists res, r = Some res /\ (json res = None \/ json res = Some JNull)) ->
  document (poll s r) = document s /\
  map_layers (poll s r) = map_layers s /\
  marker (poll s r) = marker s /\
  exists err, unhandled (poll s r) = unhandled s ++ [err].
Proof.
  intros [-> | (res & -> & Hj)].
  - rewrite poll_none. cbn. eauto.
  - rewrite poll_some. unfold resume.
    match goal with
    | |- context [loadRobotStatus_data res ?s'] =>
        destruct (loadRobotStatus_data_early res s' Hj) as [err ->]
    end.
    cbn. eauto.
Qed.

(** *** The marker *)



Lemma filter_markers_comm (P : Layer Num -> Prop) `{!forall x, Decision (P x)}
    (ls : list (Layer Num)) :
  filter (fun l => is_marker l = true) (filter P ls)
    = filter P (filter (fun l => is_marker l = true) ls).
Proof.
  induction ls as [| x ls IH]; [done |].
  rewrite !filter_cons.
  repeat (case_decide; rewrite ?filter_cons); congruence.
Qed.

(** Under the invariant, line 17 leaves no marker on the map. *)
Lemma no_marker_after_remove s :
  marker_inv s ->
  filter (fun l => is_marker l = true)
    (without_marker (marker s) (map_layers s)) = [].
Proof.
  intros [Hnil | (m & Hm & Hone)]; unfold markers in *.
  - destruct (marker s) as [l |]; cbn; [| done].
    by rewrite filter_markers_comm, Hnil.
  - rewrite Hm. cbn. rewrite filter_markers_comm, Hone.
    rewrite filter_cons. by case_decide.
Qed.








(** *** Polls in flight together *)





(** *** Login *)

Lemma step_login s :
  has_login_form s ->
  exists entries,
    step s ClickLogin
      = with_pending <[length (requests s) := AwaitFetch LoginSubmit]>
          (with_requests
             (fun l => l ++ [ {| method := POST; url := API_URL +:+ "/login";
                                 headers := [];
                                 form_body := Some entries |} ]) s).
Proof.
  intros ([eu Hu] & [ep Hp] & (el & entries & Hform & Hdata)).
  exists entries. cbn. unfold call, loginBtn_click. run_js.
  repeat (first [rewrite Hu | rewrite Hp | rewrite Hform | rewrite Hdata];
          cbn).
  done.
Qed.

(** C3. With the login form in the page: when the server answers 2xx (200
    is one) with a body whose [access_token] is the string [t], the handler
    stores [t] under the key [token] and assigns [main.html] to the
    location; when it answers outside 2xx (401 is one) the handler writes
    the fixed failure text into [message], leaves the storage and the
    location as they were, and waits for nothing more. *)
Theorem login_stores_token_or_reports s res :
  has_login_form s ->
  (forall j : option (JsValue Num),
     ok {| status := 200; json := j |} = true /\
     ok {| status := 401; json := j |} = false) /\
  (forall members t,
     ok res = true ->
     json res = Some (JObj members) ->
     own_property "access_token" members = Some (JStr t) ->
     localStorage (run s [ClickLogin;
                          FetchSettle (length (requests s)) (Some res);
                          BodySettle (length (requests s))])
       = <["token" := t]> (localStorage s) /\
     location (run s [ClickLogin;
                      FetchSettle (length (requests s)) (Some res);
                      BodySettle (length (requests s))])
       = location s ++ ["main.html"]) /\
  (ok res = false ->
   is_Some (document s !! "message") ->
   text_of "message" (run s [ClickLogin;
                             FetchSettle (length (requests s)) (Some res)])
     = Some login_failed_message /\
   localStorage (run s [ClickLogin;
                        FetchSettle (length (requests s)) (Some res)])
     = localStorage s /\
   location (run s [ClickLogin;
                    FetchSettle (length (requests s)) (Some res)])
     = location s /\
   pending (run s [ClickLogin;
                   FetchSettle (length (requests s)) (Some res)])
     !! length (requests s) = None).
Proof.
  intros Hform. destruct (step_login s Hform) as [entries Hclick].
  split; [done |]. split.
  - intros members t Hok Hj Htok. unfold run. cbn [fold_left].
    rewrite Hclick. cbn. rewrite lookup_insert_eq.
    unfold resume, loginBtn_click_res. run_js. cbn. rewrite Hok. cbn.
    rewrite lookup_insert_eq. unfold resume. cbn.
    rewrite Hj. cbn. rewrite Htok. done.
  - intros Hok [em Hm]. unfold run. cbn [fold_left].
    rewrite Hclick. cbn. rewrite lookup_insert_eq.
    unfold resume, loginBtn_click_res. run_js. cbn. rewrite Hok. cbn.
    rewrite Hm. cbn. unfold text_of. cbn.
    rewrite lookup_alter_eq, Hm, lookup_delete_eq. done.
Qed.

(** *** The stored token *)

(** Every step but logout and the end of a login leaves the storage as it
    is. *)
Lemma step_storage s e :
  e = ClickLogout \/
  (exists i res,
     e = BodySettle i /\ pending s !! i = Some (AwaitJson LoginSubmit res)) \/
  localStorage (step s e) = localStorage s.
Proof.
  destruct e as [| | | | | i r | i].
  - right; right. done.
  - right; right. done.
  - right; right. done.
  - by left.
  - right; right. cbn. unfold call. run_js. split_js; done.
  - right; right. cbn. destruct (pending s !! i) as [[[|]|]|]; [| | done | done];
      unfold resume; run_js; split_js; done.
  - cbn. destruct (pending s !! i) as [[|[|] res]|] eqn:Hp;
      [by (right; right) | | | by (right; right)].
    + right; right. unfold resume.
      pose proof (loadRobotStatus_data_frame res (with_pending (delete i) s))
        as (Hls & _).
      destruct (loadRobotStatus_data res _) as [s' [err | [aw |]]];
        cbn in *; done.
    + right; left. by exists i, res.
Qed.

(** Where the rest of a poll ends, nothing is awaited. *)
Lemma loadRobotStatus_data_ends res s aw :
  (loadRobotStatus_data res s).2 ≠ inr (Some aw).
Proof. run_js. split_js; done. Qed.

Lemma login_free_step s e :
  login_free s -> dashboard_event e -> login_free (step s e).
Proof.
  intros Hfree He. destruct e as [| | | | | i r | i]; try done.
  - rewrite step_tick. intros j a. cbn.
    rewrite lookup_insert. case_decide.
    + intros [= <-]. by left.
    + apply Hfree.
  - destruct (pending s !! i) as [[[|]|]|] eqn:Hp.
    + rewrite (step_fetch_poll s i r Hp).
      destruct r as [res |]; intros j a; cbn.
      * rewrite lookup_insert. case_decide.
        -- intros [= <-]. right. by exists res.
        -- rewrite lookup_delete_ne by done. apply Hfree.
      * rewrite lookup_delete. case_decide; [done | apply Hfree].
    + destruct (Hfree i _ Hp) as [[=] | [res [=]]].
    + cbn. by rewrite Hp.
    + cbn. by rewrite Hp.
  - cbn. destruct (pending s !! i) as [[|[|] res]|] eqn:Hp; try done.
    + unfold resume.
      pose proof (loadRobotStatus_data_frame res (with_pending (delete i) s))
        as (_ & _ & _ & Hpend & _).
      pose proof (loadRobotStatus_data_ends res (with_pending (delete i) s))
        as Hends.
      destruct (loadRobotStatus_data res _) as [s' [err | [aw |]]];
        cbn in *; [| by destruct (Hends aw) |];
        intros j a; cbn; rewrite Hpend; cbn; rewrite lookup_delete;
        (case_decide; [done | apply Hfree]).
    + destruct (Hfree i _ Hp) as [[=] | [res' [=]]].
Qed.

(** The login handler comes to wait for a body only behind [res.ok]. *)
Lemma await_login_body_behind_ok s e i res :
  pending (step s e) !! i = Some (AwaitJson LoginSubmit res) ->
  pending s !! i = Some (AwaitJson LoginSubmit res) \/ ok res = true.
Proof.
  destruct e as [| | | | | j r | j].
  - rewrite step_tick. cbn. rewrite lookup_insert.
    case_decide; [done | by left].
  - by left.
  - by left.
  - by left.
  - cbn. unfold call, loginBtn_click. run_js. split_js; try by left.
    rewrite lookup_insert. case_decide; [done | by left].
  - cbn. destruct (pending s !! j) as [[[|]|]|] eqn:Hp; try by left.
    + unfold resume. run_js. destruct r as [res' |]; cbn.
      * rewrite lookup_insert. case_decide; [done |].
        rewrite lookup_delete_ne by done. by left.
      * rewrite lookup_delete. case_decide; [done | by left].
    + unfold resume. run_js. destruct r as [res' |]; cbn.
      * destruct (ok res') eqn:Hok; cbn.
        -- rewrite lookup_insert. case_decide.
           ++ intros [= <-]. by right.
           ++ rewrite lookup_delete_ne by done. by left.
        -- split_js; rewrite lookup_delete; (case_decide; [done | by left]).
      * rewrite lookup_delete. case_decide; [done | by left].
  - cbn. destruct (pending s !! j) as [[|[|] res']|] eqn:Hp; try by left.
    + unfold resume.
      pose proof (loadRobotStatus_data_frame res' (with_pending (delete j) s))
        as (_ & _ & _ & Hpend & _).
      pose proof (loadRobotStatus_data_ends res' (with_pending (delete j) s))
        as Hends.
      destruct (loadRobotStatus_data res' _) as [s' [err | [aw |]]];
        cbn in *; [| by destruct (Hends aw) |];
        rewrite Hpend; cbn; rewrite lookup_delete;
        (case_decide; [done | by left]).
    + unfold resume. run_js.
      split_js; rewrite lookup_delete; (case_decide; [done | by left]).
Qed.

Lemma dashboard_run_storage es :
  forall s,
    login_free s -> Forall dashboard_event es ->
    localStorage (run s es) = localStorage s.
Proof.
  induction es as [| e es IH]; intros s Hfree Hes; [done |].
  inversion Hes as [| ? ? He Hrest]; subst.
  change (run s (e :: es)) with (run (step s e) es).
  rewrite IH by (by try apply login_free_step).
  destruct (step_storage s e) as [-> | [(i & res & -> & Hp) | Hsame]];
    [done | | done].
  destruct (Hfree i _ Hp) as [[=] | [res' [=]]].
Qed.

(** C8. The stored token, like all of [localStorage], changes at two places
    only: [logout], and the end of a login whose body was read — a body the
    handler comes to wait for only when the response is 2xx.  The timer,
    the two commands and the settling of a poll's promises leave the
    storage exactly as it is, step by step and over any run of them. *)
Theorem storage_written_by_login_and_logout_only :
  (forall s e,
     localStorage (step s e) ≠ localStorage s ->
     e = ClickLogout \/
     exists i res,
       e = BodySettle i /\ pending s !! i = Some (AwaitJson LoginSubmit res)) /\
  (forall s e i res,
     pending (step s e) !! i = Some (AwaitJson LoginSubmit res) ->
     pending s !! i = Some (AwaitJson LoginSubmit res) \/ ok res = true) /\
  (forall s, localStorage (step s Tick) = localStorage s) /\
  (forall s, localStorage (step s ClickStart) = localStorage s) /\
  (forall s, localStorage (step s ClickReturn) = localStorage s) /\
  (forall s i r,
     poll_await (pending s !! i) ->
     localStorage (step s (FetchSettle i r)) = localStorage s /\
     localStorage (step s (BodySettle i)) = localStorage s) /\
  (forall s es,
     login_free s -> Forall dashboard_event es ->
     localStorage (run s es) = localStorage s).
Proof.
  split.
  { intros s e Hne.
    destruct (step_storage s e) as [He | [He | He]]; [by left | by right |].
    by destruct Hne. }
  split; [exact await_login_body_behind_ok |].
  split; [done |]. split; [done |]. split; [done |]. split.
  - intros s i r Hp. split.
    + destruct (step_storage s (FetchSettle i r))
        as [[=] | [(j & res & [=] & _) | Hsame]]; done.
    + destruct (step_storage s (BodySettle i))
        as [[=] | [(j & res & [= <-] & Hlogin) | Hsame]]; [| done].
      rewrite Hlogin in Hp. by destruct Hp as [[=] | [res' [=]]].
  - intros s es. apply dashboard_run_storage.
Qed.

(** *** Where the requests go *)


(** ** Further properties of the scripts *)

(** *** The map *)










(** *** What a poll writes *)

(** The settled response is read through [res.json()] alone. *)
Lemma loadRobotStatus_data_json res res' s :
  json res = json res' ->
  loadRobotStatus_data res s = loadRobotStatus_data res' s.
Proof. intros Hj. unfold loadRobotStatus_data. by rewrite Hj. Qed.

Lemma poll_some_waiting s res :
  poll s (Some res)
    = match loadRobotStatus_data res
              (with_pending (delete (length (requests s))) (step s Tick)) with
      | (s', inl err) => with_unhandled (fun l => l ++ [err]) s'
      | (s', inr None) => s'
      | (s', inr (Some aw)) =>
          with_pending <[length (requests s) := aw]> s'
      end.
Proof.
  rewrite poll_some. unfold resume.
  replace (with_pending (delete (length (requests s)))
             (with_pending
                (fun p => <[length (requests s) := AwaitJson StatusPoll res]>
                            (delete (length (requests s)) p))
                (step s Tick)))
    with (with_pending (delete (length (requests s))) (step s Tick));
    [done |].
  unfold with_pending. cbn. f_equal.
  repeat (rewrite delete_insert_eq || rewrite delete_delete_eq). done.
Qed.

(** X2. [loadRobotStatus] never looks at the status of the response: two
    responses with the same body, whatever their status codes, leave the
    page in the same state. *)
Theorem poll_ignores_status s res res' :
  json res = json res' ->
  poll s (Some res) = poll s (Some res').
Proof.
  intros Hj. rewrite !poll_some_waiting.
  by rewrite (loadRobotStatus_data_json res res' _ Hj).
Qed.

(** Lines 14-18 on an object whose three members all print: the texts are
    written and the old marker is off the map before Leaflet is asked for
    the new one. *)
Lemma loadRobotStatus_data_object s res members tb sl so :
  has_fields s ->
  json res = Some (JObj members) ->
  ToDOMString_null_empty
    (default JUndefined (own_property "battery" members)) = Some tb ->
  ToString (default JUndefined (own_property "lat" members)) = Some sl ->
  ToString (default JUndefined (own_property "lon" members)) = Some so ->
  loadRobotStatus_data res s
    = match latLng (default JUndefined (own_property "lat" members))
              (default JUndefined (own_property "lon" members)) with
      | None =>
          (with_map_layers (without_marker (marker s))
             (with_document
                (fun d => alter (write_innerText (sl +:+ ", " +:+ so))
                            "position"
                            (alter (write_innerText tb) "battery" d)) s),
           inl LeafletError)
      | Some c =>
          (with_marker
             (Some {| stamp := next_stamp s; kind := Marker c.1 c.2 |})
             (with_next_stamp (S (next_stamp s))
                (with_map_layers
                   (fun ls => without_marker (marker s) ls
                              ++ [ {| stamp := next_stamp s;
                                      kind := Marker c.1 c.2 |} ])
                   (with_document
                      (fun d => alter (write_innerText (sl +:+ ", " +:+ so))
                                  "position"
                                  (alter (write_innerText tb) "battery" d))
                      s))),
           inr None)
      end.
Proof.
  intros [[eb Hb] [ep Hp]] Hj Htb Hsl Hso.
  unfold loadRobotStatus_data, bind at 1. rewrite Hj. cbn.
  unfold bind at 1. unfold getElementById, gets. rewrite Hb.
  unfold bind at 1. cbn.
  unfold bind at 1. unfold set_innerText, bind, lift_option, modify, ret.
  rewrite Htb. cbn.
  rewrite lookup_alter_ne by done. rewrite Hp, Hsl, Hso. cbn.
  unfold L_marker, bind, lift_option, removeLayer, modify, ret.
  unfold without_marker.
  destruct (latLng _ _) as [c |]; destruct (marker s); reflexivity.
Qed.

(** X3. After a poll whose body is an object with numeric [lat] and [lon]
    (and a [battery] that prints), the position field reads the two
    numbers' strings joined by a comma and a space, in that order. *)
Theorem position_text_after_poll s res members tb lat lon :
  has_fields s ->
  json res = Some (JObj members) ->
  ToDOMString_null_empty
    (default JUndefined (own_property "battery" members)) = Some tb ->
  own_property "lat" members = Some (JNum lat) ->
  own_property "lon" members = Some (JNum lon) ->
  text_of "position" (poll s (Some res))
    = Some (num_to_string lat +:+ ", " +:+ num_to_string lon).
Proof.
  intros Hf Hj Htb Hlat Hlon. rewrite poll_some_waiting.
  match goal with
  | |- context [loadRobotStatus_data res ?s'] =>
      rewrite (loadRobotStatus_data_object s' res members tb
                 (num_to_string lat) (num_to_string lon) Hf Hj Htb)
        by (by rewrite ?Hlat, ?Hlon)
  end.
  rewrite Hlat, Hlon. cbn. rewrite latLng_numbers.
  destruct Hf as [_ [ep Hp]]. unfold text_of. cbn.
  by rewrite lookup_alter_eq, lookup_alter_ne, Hp.
Qed.

(** Line 14 alone: whatever the later lines do, the battery field reads the
    string of the value [data.battery] gave. *)
Lemma loadRobotStatus_data_battery_text s res data v t :
  json res = Some data ->
  get_property data "battery" = ret v ->
  ToDOMString_null_empty v = Some t ->
  is_Some (document s !! "battery") ->
  text_of "battery" (loadRobotStatus_data res s).1 = Some t.
Proof.
  intros Hj Hget Ht [eb Hb].
  unfold loadRobotStatus_data, bind at 1. rewrite Hj. cbn.
  unfold bind at 1. unfold getElementById at 1, gets. rewrite Hb.
  unfold bind at 1. rewrite Hget. cbn.
  unfold bind at 1. unfold set_innerText at 1.
  unfold bind at 1. cbn. unfold bind at 1. rewrite Ht. cbn.
  clear Hget. run_js. split_js; unfold text_of; cbn;
    repeat (rewrite lookup_alter_eq || rewrite lookup_alter_ne by done);
    by rewrite Hb.
Qed.

Lemma poll_battery_text s res data v t :
  json res = Some data ->
  get_property data "battery" = ret v ->
  ToDOMString_null_empty v = Some t ->
  is_Some (document s !! "battery") ->
  text_of "battery" (poll s (Some res)) = Some t.
Proof.
  intros Hj Hget Ht Hel. rewrite poll_some_waiting.
  pose proof (loadRobotStatus_data_battery_text
                (with_pending (delete (length (requests s))) (step s Tick))
                res data v t Hj Hget Ht Hel) as Htext.
  destruct (loadRobotStatus_data res _) as [s' [err | [aw |]]]; exact Htext.
Qed.

(** X4. What line 14 shows when [battery] is not a number: a body that is
    an object without the member, or not an object at all (an array, a
    string, a number, a boolean), makes the field read [undefined]; a
    [null] member empties it; a string member is shown as it is. *)
Theorem battery_text_edge_cases s res :
  is_Some (document s !! "battery") ->
  (forall members,
     json res = Some (JObj members) ->
     own_property "battery" members = None ->
     text_of "battery" (poll s (Some res)) = Some "undefined") /\
  (forall data,
     json res = Some data ->
     (forall members, data ≠ JObj members) ->
     data ≠ JNull -> data ≠ JUndefined ->
     text_of "battery" (poll s (Some res)) = Some "undefined") /\
  (forall members,
     json res = Some (JObj members) ->
     own_property "battery" members = Some JNull ->
     text_of "battery" (poll s (Some res)) = Some EmptyString) /\
  (forall members t,
     json res = Some (JObj members) ->
     own_property "battery" members = Some (JStr t) ->
     text_of "battery" (poll s (Some res)) = Some t).
Proof.
  intros Hel. repeat split.
  - intros members Hj Hnone.
    apply (poll_battery_text s res (JObj members) JUndefined);
      [done | | done | done].
    unfold get_property. by rewrite Hnone.
  - intros data Hj Hobj Hnull Hundef.
    apply (poll_battery_text s res data JUndefined); [done | | done | done].
    destruct data; try done. by destruct (Hobj members).
  - intros members Hj Hb.
    apply (poll_battery_text s res (JObj members) JNull);
      [done | | done | done].
    unfold get_property. by rewrite Hb.
  - intros members t Hj Hb.
    apply (poll_battery_text s res (JObj members) (JStr t));
      [done | | done | done].
    unfold get_property. by rewrite Hb.
Qed.

(** X5. A body whose texts print but whose coordinates Leaflet refuses is
    shown half-way: both text fields are written, the old marker is taken
    off the map and none is put on, [marker] keeps referring to the marker
    that was removed, and the call ends in an unhandled Leaflet error. *)
Theorem refused_coordinates_leave_no_marker s res members tb sl so :
  has_fields s ->
  json res = Some (JObj members) ->
  ToDOMString_null_empty
    (default JUndefined (own_property "battery" members)) = Some tb ->
  ToString (default JUndefined (own_property "lat" members)) = Some sl ->
  ToString (default JUndefined (own_property "lon" members)) = Some so ->
  latLng (default JUndefined (own_property "lat" members))
         (default JUndefined (own_property "lon" members)) = None ->
  text_of "battery" (poll s (Some res)) = Some tb /\
  text_of "position" (poll s (Some res)) = Some (sl +:+ ", " +:+ so) /\
  map_layers (poll s (Some res)) = without_marker (marker s) (map_layers s) /\
  marker (poll s (Some res)) = marker s /\
  unhandled (poll s (Some res)) = unhandled s ++ [LeafletError] /\
  (marker_inv s -> markers (poll s (Some res)) = []).
Proof.
  intros Hf Hj Htb Hsl Hso Hno. rewrite poll_some_waiting.
  match goal with
  | |- context [loadRobotStatus_data res ?s'] =>
      rewrite (loadRobotStatus_data_object s' res members tb sl so
                 Hf Hj Htb Hsl Hso)
  end.
  rewrite Hno. destruct Hf as [[eb Hb] [ep Hp]]. unfold text_of. cbn.
  rewrite lookup_alter_ne, !lookup_alter_eq, lookup_alter_ne, Hb, Hp by done.
  repeat split. intros Hinv. unfold markers. cbn.
  by apply no_marker_after_remove.
Qed.

(** *** Login, its other outcomes *)

(** A login that gets a 2xx answer whose [access_token] prints. *)
Lemma login_run s res data v t :
  has_login_form s ->
  ok res = true ->
  json res = Some data ->
  get_property data "access_token" = ret v ->
  ToString v = Some t ->
  exists s',
    run s [ClickLogin; FetchSettle (length (requests s)) (Some res);
           BodySettle (length (requests s))]
      = with_location (fun l => l ++ ["main.html"])
          (with_localStorage <["token" := t]> s') /\
    localStorage s' = localStorage s /\ document s' = document s /\
    location s' = location s /\ unhandled s' = unhandled s.
Proof.
  intros Hform Hok Hj Hget Ht.
  destruct (step_login s Hform) as [entries Hclick].
  unfold run. cbn [fold_left]. rewrite Hclick. cbn.
  rewrite lookup_insert_eq.
  unfold resume, loginBtn_click_res, bind, lift_option, ret. cbn.
  rewrite Hok. cbn. rewrite lookup_insert_eq.
  unfold resume, loginBtn_click_data, bind at 1. cbn. rewrite Hj. cbn.
  unfold bind at 1. rewrite Hget. cbn.
  unfold bind at 1. rewrite Ht. cbn.
  eexists. split; [reflexivity | done].
Qed.

(** X6. Only an answer outside 2xx makes the login page say anything.  When
    [fetch] itself fails, or a 2xx answer has a body that is not JSON or is
    [null], the handler ends in an unhandled rejection: no text of the page
    changes, nothing is stored and the page does not navigate. *)
Theorem login_failure_without_message s r :
  has_login_form s ->
  r = None \/
  (exists res, r = Some res /\ ok res = true /\
               (json res = None \/ json res = Some JNull)) ->
  document (run s [ClickLogin; FetchSettle (length (requests s)) r;
                   BodySettle (length (requests s))]) = document s /\
  localStorage (run s [ClickLogin; FetchSettle (length (requests s)) r;
                       BodySettle (length (requests s))]) = localStorage s /\
  location (run s [ClickLogin; FetchSettle (length (requests s)) r;
                   BodySettle (length (requests s))]) = location s /\
  exists err,
    unhandled (run s [ClickLogin; FetchSettle (length (requests s)) r;
                      BodySettle (length (requests s))])
      = unhandled s ++ [err].
Proof.
  intros Hform Hr.
  destruct (step_login s Hform) as [entries Hclick].
  unfold run. cbn [fold_left]. rewrite Hclick. cbn.
  rewrite lookup_insert_eq.
  destruct Hr as [-> | (res & -> & Hok & Hj)].
  - unfold resume, loginBtn_click_res, bind, lift_option, throw. cbn.
    rewrite lookup_delete_eq. cbn. eauto.
  - unfold resume, loginBtn_click_res, bind, lift_option, ret. cbn.
    rewrite Hok. cbn. rewrite lookup_insert_eq.
    unfold resume, loginBtn_click_data, bind at 1. cbn.
    destruct Hj as [-> | ->]; cbn; eauto.
Qed.

(** X7. What line 16 stores when a 2xx body has no string [access_token]:
    a missing member is stored as the text [undefined], a [null] one as
    [null], a number as its string — and the page navigates to the main
    view all the same.  Only a member that cannot be printed stops the
    handler: then nothing is stored and the page stays. *)
Theorem login_token_edge_cases s res members :
  has_login_form s ->
  ok res = true ->
  json res = Some (JObj members) ->
  (own_property "access_token" members = None ->
   localStorage (run s [ClickLogin;
                        FetchSettle (length (requests s)) (Some res);
                        BodySettle (length (requests s))])
     = <["token" := "undefined"]> (localStorage s) /\
   location (run s [ClickLogin;
                    FetchSettle (length (requests s)) (Some res);
                    BodySettle (length (requests s))])
     = location s ++ ["main.html"]) /\
  (own_property "access_token" members = Some JNull ->
   localStorage (run s [ClickLogin;
                        FetchSettle (length (requests s)) (Some res);
                        BodySettle (length (requests s))])
     = <["token" := "null"]> (localStorage s) /\
   location (run s [ClickLogin;
                    FetchSettle (length (requests s)) (Some res);
                    BodySettle (length (requests s))])
     = location s ++ ["main.html"]) /\
  (forall n,
     own_property "access_token" members = Some (JNum n) ->
     localStorage (run s [ClickLogin;
                          FetchSettle (length (requests s)) (Some res);
                          BodySettle (length (requests s))])
       = <["token" := num_to_string n]> (localStorage s) /\
     location (run s [ClickLogin;
                      FetchSettle (length (requests s)) (Some res);
                      BodySettle (length (requests s))])
       = location s ++ ["main.html"]) /\
  (forall v,
     own_property "access_token" members = Some v ->
     ToString v = None ->
     localStorage (run s [ClickLogin;
                          FetchSettle (length (requests s)) (Some res);
                          BodySettle (length (requests s))])
       = localStorage s /\
     location (run s [ClickLogin;
                      FetchSettle (length (requests s)) (Some res);
                      BodySettle (length (requests s))])
       = location s /\
     unhandled (run s [ClickLogin;
                       FetchSettle (length (requests s)) (Some res);
                       BodySettle (length (requests s))])
       = unhandled s ++ [TypeError]).
Proof.
  intros Hform Hok Hj.
  assert (Hprints : forall v t,
    default JUndefined (own_property "access_token" members) = v ->
    ToString v = Some t ->
    localStorage (run s [ClickLogin;
                         FetchSettle (length (requests s)) (Some res);
                         BodySettle (length (requests s))])
      = <["token" := t]> (localStorage s) /\
    location (run s [ClickLogin;
                     FetchSettle (length (requests s)) (Some res);
                     BodySettle (length (requests s))])
      = location s ++ ["main.html"]).
  { intros v t Hv Ht.
    destruct (login_run s res (JObj members) v t Hform Hok Hj)
      as (s' & -> & Hls & _ & Hloc & _); [by rewrite <- Hv | done |].
    cbn. by rewrite Hls, Hloc. }
  split; [| split; [| split]].
  - intros Hm. apply (Hprints JUndefined); [by rewrite Hm | done].
  - intros Hm. apply (Hprints JNull); [by rewrite Hm | done].
  - intros n Hm. apply (Hprints (JNum n)); [by rewrite Hm | done].
  - intros v Hm Hno.
    destruct (step_login s Hform) as [entries Hclick].
    unfold run. cbn [fold_left]. rewrite Hclick. cbn.
    rewrite lookup_insert_eq.
    unfold resume, loginBtn_click_res, bind, lift_option, ret. cbn.
    rewrite Hok. cbn. rewrite lookup_insert_eq.
    unfold resume, loginBtn_click_data, bind at 1. cbn. rewrite Hj. cbn.
    unfold bind at 1. cbn. rewrite Hm. cbn.
    unfold bind at 1. rewrite Hno. done.
Qed.

(** X8. The click handler sends its request exactly when the page has the
    two inputs and [login-form] is a form: then the body is the entry list
    of the form, whatever the two inputs hold; otherwise the handler stops
    on a [TypeError] before [fetch], and nothing else changes. *)
Theorem login_needs_the_form s :
  (has_login_form s ->
   exists el entries,
     document s !! "login-form" = Some el /\
     form_data el = Some entries /\
     step s ClickLogin
       = with_pending <[length (requests s) := AwaitFetch LoginSubmit]>
           (with_requests
              (fun l => l ++ [ {| method := POST;
                                  url := API_URL +:+ "/login";
                                  headers := [];
                                  form_body := Some entries |} ]) s)) /\
  (~ has_login_form s ->
   step s ClickLogin = with_unhandled (fun l => l ++ [TypeError]) s).
Proof.
  split.
  - intros ([eu Hu] & [ep Hp] & (el & entries & Hform & Hdata)).
    exists el, entries. split; [done |]. split; [done |].
    cbn. unfold call, loginBtn_click. run_js.
    repeat (first [rewrite Hu | rewrite Hp | rewrite Hform | rewrite Hdata];
            cbn).
    done.
  - intros Hno. cbn. unfold call, loginBtn_click. run_js.
    destruct (document s !! "username") as [eu |] eqn:Hu;
      cbn; rewrite ?Hu; cbn; [| done].
    destruct (document s !! "password") as [ep |] eqn:Hp;
      cbn; rewrite ?Hp; cbn; [| done].
    destruct (document s !! "login-form") as [el |] eqn:Hform;
      cbn; rewrite ?Hform; cbn; [| done].
    destruct (form_data el) as [entries |] eqn:Hdata; cbn; [| done].
    destruct Hno. split; [by eexists |]. split; [by eexists |].
    by exists el, entries.
Qed.

(** *** The token from login to the requests *)

(** Every request of the dashboard carries what is stored under [token]
    when it is issued. *)
Lemma request_carries_token s e :
  issues_request e = true ->
  exists req,
    requests (step s e) = requests s ++ [req] /\
    headers req = [("Authorization", bearer (localStorage s !! "token"))].
Proof. destruct e; try done; intros _; by eexists. Qed.

(** X9. The token makes the round trip: once a login has stored the
    [access_token] string [t], the next status poll, start command or
    return command sends [Bearer t]; once [logout] has run after that, the
    same request sends [Bearer null]. *)
Theorem token_round_trip s res members t e :
  has_login_form s ->
  ok res = true ->
  json res = Some (JObj members) ->
  own_property "access_token" members = Some (JStr t) ->
  issues_request e = true ->
  (exists req,
     requests (step (run s [ClickLogin;
                            FetchSettle (length (requests s)) (Some res);
                            BodySettle (length (requests s))]) e)
       = requests (run s [ClickLogin;
                          FetchSettle (length (requests s)) (Some res);
                          BodySettle (length (requests s))]) ++ [req] /\
     headers req = [("Authorization", "Bearer " +:+ t)]) /\
  (exists req,
     requests (step (step (run s [ClickLogin;
                                  FetchSettle (length (requests s)) (Some res);
                                  BodySettle (length (requests s))])
                          ClickLogout) e)
       = requests (run s [ClickLogin;
                          FetchSettle (length (requests s)) (Some res);
                          BodySettle (length (requests s))]) ++ [req] /\
     headers req = [("Authorization", "Bearer null")]).
Proof.
  intros Hform Hok Hj Htok He.
  destruct (login_run s res (JObj members) (JStr t) t Hform Hok Hj)
    as (s' & -> & _); [unfold get_property; by rewrite Htok | done |].
  split.
  - destruct (request_carries_token
                (with_location (fun l => l ++ ["main.html"])
                   (with_localStorage <["token" := t]> s')) e He)
      as (req & Hreq & Hhead).
    exists req. split; [exact Hreq |].
    rewrite Hhead. cbn. by rewrite lookup_insert_eq.
  - destruct (request_carries_token
                (step (with_location (fun l => l ++ ["main.html"])
                         (with_localStorage <["token" := t]> s'))
                      ClickLogout) e He)
      as (req & Hreq & Hhead).
    exists req. split; [exact Hreq |].
    rewrite Hhead. cbn. by rewrite lookup_delete_eq.
Qed.

(** X10. A second login overwrites the token of the first: after two
    logins that both succeed, the storage holds the token of the second
    under [token], and is otherwise what it was before the first. *)
Theorem second_login_overwrites_token s res1 res2 members1 members2 t1 t2 :
  has_login_form s ->
  ok res1 = true -> json res1 = Some (JObj members1) ->
  own_property "access_token" members1 = Some (JStr t1) ->
  ok res2 = true -> json res2 = Some (JObj members2) ->
  own_property "access_token" members2 = Some (JStr t2) ->
  localStorage
    (run (run s [ClickLogin;
                 FetchSettle (length (requests s)) (Some res1);
                 BodySettle (length (requests s))])
         [ClickLogin;
          FetchSettle
            (length (requests
               (run s [ClickLogin;
                       FetchSettle (length (requests s)) (Some res1);
                       BodySettle (length (requests s))])))
            (Some res2);
          BodySettle
            (length (requests
               (run s [ClickLogin;
                       FetchSettle (length (requests s)) (Some res1);
                       BodySettle (length (requests s))])))])
    = <["token" := t2]> (localStorage s).
Proof.
  intros Hform Hok1 Hj1 Htok1 Hok2 Hj2 Htok2.
  destruct (login_run s res1 (JObj members1) (JStr t1) t1 Hform Hok1 Hj1)
    as (s1 & -> & Hls1 & Hd1 & _);
    [unfold get_property; by rewrite Htok1 | done |].
  assert (Hform1 : has_login_form
            (with_location (fun l => l ++ ["main.html"])
               (with_localStorage <["token" := t1]> s1)))
    by (unfold has_login_form in *; cbn; by rewrite Hd1).
  destruct (login_run _ res2 (JObj members2) (JStr t2) t2 Hform1 Hok2 Hj2)
    as (s2 & -> & Hls2 & _);
    [unfold get_property; by rewrite Htok2 | done |].
  cbn in *. by rewrite Hls2, Hls1, insert_insert_eq.
Qed.

(** *** What no step touches *)

(** The storage after a step: as it was, without [token], or with a new
    [token]. *)
Lemma step_storage_shape s e :
  localStorage (step s e) = localStorage s \/
  localStorage (step s e) = delete "token" (localStorage s) \/
  exists t, localStorage (step s e) = <["token" := t]> (localStorage s).
Proof.
  destruct (step_storage s e) as [-> | [(i & res & -> & Hp) | Hsame]].
  - right. by left.
  - cbn. rewrite Hp. unfold resume. run_js.
    split_js; first [by left | right; right; by eexists].
  - by left.
Qed.

(** X11. The scripts own one key of the storage.  Whatever happens — polls,
    commands, logins, logouts, in any order — every key other than [token]
    holds after the run what it held before. *)
Theorem storage_other_keys_untouched es :
  forall s k,
    k ≠ "token" ->
    localStorage (run s es) !! k = localStorage s !! k.
Proof.
  induction es as [| e es IH]; intros s k Hk; [done |].
  change (run s (e :: es)) with (run (step s e) es).
  rewrite IH by done.
  destruct (step_storage_shape s e) as [-> | [-> | [t ->]]].
  - done.
  - by rewrite lookup_delete_ne.
  - by rewrite lookup_insert_ne.
Qed.

(** Where a step can send the page. *)
Lemma step_location s e :
  location (step s e) = location s \/
  (e = ClickLogout /\ location (step s e) = location s ++ ["login.html"]) \/
  (exists i res,
     e = BodySettle i /\
     pending s !! i = Some (AwaitJson LoginSubmit res) /\
     location (step s e) = location s ++ ["main.html"]).
Proof.
  destruct e as [| | | | | i r | i].
  - by left.
  - by left.
  - by left.
  - right. by left.
  - left. cbn. unfold call. run_js. split_js; done.
  - left. cbn. destruct (pending s !! i) as [[[|]|]|]; [| | done | done];
      unfold resume; run_js; split_js; done.
  - cbn. destruct (pending s !! i) as [[|[|] res]|] eqn:Hp;
      [by left | | | by left].
    + left. unfold resume.
      pose proof (loadRobotStatus_data_frame res (with_pending (delete i) s))
        as (_ & _ & Hloc & _).
      destruct (loadRobotStatus_data res _) as [s' [err | [aw |]]];
        cbn in *; done.
    + unfold resume. run_js.
      split_js; first [by left | right; right; by exists i, res].
Qed.

(** X12. The page navigates at two places only: [logout] sends it to
    [login.html], and a login whose body was read sends it to [main.html].
    Polls and commands never navigate, however their requests end. *)
Theorem navigation_only_by_login_and_logout :
  (forall s e,
     location (step s e) = location s \/
     (e = ClickLogout /\
      location (step s e) = location s ++ ["login.html"]) \/
     (exists i res,
        e = BodySettle i /\
        pending s !! i = Some (AwaitJson LoginSubmit res) /\
        location (step s e) = location s ++ ["main.html"])) /\
  (forall es s,
     login_free s -> Forall dashboard_event es ->
     location (run s es) = location s).
Proof.
  split; [exact step_location |].
  induction es as [| e es IH]; intros s Hfree Hes; [done |].
  inversion Hes as [| ? ? He Hrest]; subst.
  change (run s (e :: es)) with (run (step s e) es).
  rewrite IH by (by try apply login_free_step).
  destruct (step_location s e)
    as [Hsame | [[-> _] | (i & res & -> & Hp & _)]]; [done | done |].
  destruct (Hfree i _ Hp) as [[=] | [res' [=]]].
Qed.

(** *** Requests and the calls that wait on them *)





(** The settling of a promise issues no request. *)
Lemma fetch_settle_requests s i r :
  requests (step s (FetchSettle i r)) = requests s.
Proof.
  cbn. destruct (pending s !! i) as [[[|]|]|]; [| | done | done];
    unfold resume; run_js; split_js; done.
Qed.

Lemma body_settle_requests s i :
  requests (step s (BodySettle i)) = requests s.
Proof.
  cbn. destruct (pending s !! i) as [[|[|] res]|]; [done | | | done].
  - unfold resume.
    pose proof (loadRobotStatus_data_frame res (with_pending (delete i) s))
      as (_ & Hreq & _).
    destruct (loadRobotStatus_data res _) as [s' [err | [aw |]]];
      cbn in *; done.
  - unfold resume. run_js. split_js; done.
Qed.

Lemma step_requests_length s e :
  e ≠ ClickLogin ->
  length (requests (step s e))
    = length (requests s) + (if issues_request e then 1 else 0).
Proof.
  intros He. destruct e as [| | | | | i r | i].
  - rewrite step_tick. cbn. by rewrite length_app.
  - cbn. by rewrite length_app.
  - cbn. by rewrite length_app.
  - cbn. lia.
  - done.
  - rewrite fetch_settle_requests. cbn. lia.
  - rewrite body_settle_requests. cbn. lia.
Qed.

(** X14. On the dashboard a request goes out exactly when the timer ticks
    or a command button is clicked: the number of requests issued by a run
    is the number of those events in it.  Nothing is retried when a request
    fails, and nothing is held back while another poll is in flight. *)
Theorem requests_counted es :
  forall s,
    Forall (fun e => e ≠ ClickLogin) es ->
    length (requests (run s es))
      = length (requests s)
        + length (filter (fun e => issues_request e = true) es).
Proof.
  induction es as [| e es IH]; intros s Hes; [cbn; lia |].
  inversion Hes as [| ? ? He Hrest]; subst.
  change (run s (e :: es)) with (run (step s e) es).
  rewrite IH, step_requests_length, filter_cons by done.
  destruct (issues_request e); case_decide; try done; cbn; lia.
Qed.

(** *** What the page shows, and when it changes *)




(** One step, seen from the dashboard's display. *)
Lemma step_display s e :
  (forall i res,
     e = BodySettle i -> pending s !! i ≠ Some (AwaitJson StatusPoll res)) ->
  text_of "battery" (step s e) = text_of "battery" s /\
  text_of "position" (step s e) = text_of "position" s /\
  map_layers (step s e) = map_layers s /\
  marker (step s e) = marker s.
Proof.
  intros Hnot. destruct e as [| | | | | i r | i].
  - done.
  - done.
  - done.
  - done.
  - cbn. unfold call. run_js. split_js; done.
  - cbn. destruct (pending s !! i) as [[[|]|]|]; [| | done | done];
      unfold resume; run_js; split_js; unfold text_of; cbn;
      rewrite ?lookup_alter_ne by done; done.
  - cbn. destruct (pending s !! i) as [[|[|] res]|] eqn:Hp;
      [done | | | done].
    + by destruct (Hnot i res eq_refl).
    + unfold resume. run_js. split_js; done.
Qed.

(** X16. The battery text, the position text and the map change at one
    place only: where the body of a status response has been read.  Timer
    ticks, commands, logout, the login flow and the arrival of response
    headers leave all of them as they are. *)
Theorem display_changes_only_when_a_poll_body_settles :
  (forall s e,
     (forall i res,
        e = BodySettle i ->
        pending s !! i ≠ Some (AwaitJson StatusPoll res)) ->
     text_of "battery" (step s e) = text_of "battery" s /\
     text_of "position" (step s e) = text_of "position" s /\
     map_layers (step s e) = map_layers s /\
     marker (step s e) = marker s) /\
  (forall es s,
     Forall (fun e => forall i, e ≠ BodySettle i) es ->
     text_of "battery" (run s es) = text_of "battery" s /\
     text_of "position" (run s es) = text_of "position" s /\
     map_layers (run s es) = map_layers s /\
     marker (run s es) = marker s).
Proof.
  split; [exact step_display |].
  induction es as [| e es IH]; intros s Hes; [done |].
  inversion Hes as [| ? ? He Hrest]; subst.
  change (run s (e :: es)) with (run (step s e) es).
  destruct (IH (step s e) Hrest) as (-> & -> & -> & ->).
  apply step_display. intros i res ->. by destruct (He i).
Qed.

(** *** Loading the page *)

(** X17. Loading main.js on a page with a [map] element leaves the tile
    layer alone on the map and [marker] empty, and polls at once: one
    status request, with the stored token, is in flight before the timer
    has ticked; storage and page texts are untouched.  On a page without
    the element the script stops at line 2: no request is sent. *)
Theorem page_load_polls_at_once s0 :
  (is_Some (document s0 !! "map") ->
   exists s1,
     main_js s0 = (s1, inr tt) /\
     map_layers s1 = [tile_layer (next_stamp s0)] /\
     marker s1 = None /\
     requests s1
       = requests s0
         ++ [ {| method := GET; url := status_url;
                 headers := [("Authorization",
                              bearer (localStorage s0 !! "token"))];
                 form_body := None |} ] /\
     pending s1 !! length (requests s0) = Some (AwaitFetch StatusPoll) /\
     localStorage s1 = localStorage s0 /\
     document s1 = document s0 /\
     unhandled s1 = unhandled s0) /\
  (document s0 !! "map" = None ->
   main_js s0 = (s0, inl LeafletError)).
Proof.
  split.
  - intros [el Hel]. unfold main_js. run_js. cbn. rewrite Hel. cbn.
    eexists. split; [reflexivity |]. cbn.
    rewrite lookup_insert_eq. done.
  - intros Hnone. unfold main_js. run_js. cbn. by rewrite Hnone.
Qed.

End Properties.

(** ** The theorems at work on the example pages *)

Lemma poll_without_token_still_sent_witness :
  localStorage dashboard_logged_out !! "token" = None /\
  requests (step dashboard_logged_out Tick)
    = [ {| method := GET; url := status_url;
           headers := [("Authorization", "Bearer null")];
           form_body := None |} ].
Proof.
  split; [reflexivity |].
  destruct (poll_without_token_still_sent dashboard_logged_out eq_refl)
    as [-> _].
  reflexivity.
Defined.


Lemma battery_text_is_number_to_string_witness :
  text_of "battery" (poll dashboard (Some (snapshot 50 1 2))) = Some "50".
Proof.
  exact (battery_text_is_number_to_string dashboard (snapshot 50 1 2)
           [("battery", JNum 50%Z); ("lat", JNum 1%Z); ("lon", JNum 2%Z)]
           50%Z eq_refl eq_refl
           (ex_intro _ (text_element "87") eq_refl)).
Defined.

Lemma failed_poll_before_first_write_witness :
  document (poll dashboard (Some {| status := 200%Z; json := None |}))
    = document dashboard /\
  map_layers (poll dashboard (Some {| status := 200%Z; json := None |}))
    = map_layers dashboard /\
  marker (poll dashboard (Some {| status := 200%Z; json := None |}))
    = marker dashboard /\
  exists err,
    unhandled (poll dashboard (Some {| status := 200%Z; json := None |}))
      = unhandled dashboard ++ [err].
Proof.
  apply (failed_poll_before_first_write dashboard
           (Some {| status := 200%Z; json := None |})).
  right. exists {| status := 200%Z; json := None |}.
  split; [reflexivity | left; reflexivity].
Defined.

(** C1 as stated fails.  A 401 with a JSON body is rendered like any other
    response: the battery text becomes [undefined], the position text
    [undefined, undefined], and the marker is taken off the map.  A 200
    whose body has [battery] but no coordinates gets its battery written
    and the marker removed before the call fails on the coordinates. *)
Lemma failed_poll_changes_display :
  ok unauthorized = false /\
  text_of "battery" (poll dashboard (Some unauthorized))
    ≠ text_of "battery" dashboard /\
  markers (poll dashboard (Some unauthorized)) ≠ markers dashboard /\
  text_of "battery" dashboard = Some "87" /\
  text_of "battery" (poll dashboard (Some unauthorized)) = Some "undefined" /\
  text_of "position" (poll dashboard (Some unauthorized))
    = Some "undefined, undefined" /\
  markers dashboard = [ {| stamp := 1; kind := Marker 37%Z 127%Z |} ] /\
  markers (poll dashboard (Some unauthorized)) = [] /\
  unhandled (poll dashboard (Some battery_only)) = [LeafletError] /\
  text_of "battery" (poll dashboard (Some battery_only)) = Some "50" /\
  markers (poll dashboard (Some battery_only)) = [].
Proof. repeat split; done. Qed.

Lemma login_page_has_form : has_login_form login_page.
Proof.
  split; [by eexists |]. split; [by eexists |].
  by exists (form_element [("username", "ops"); ("password", "secret")]),
            [("username", "ops"); ("password", "secret")].
Defined.

Lemma login_stores_token_or_reports_witness :
  localStorage (run login_page [ClickLogin;
                                FetchSettle 0 (Some (token_response "T1"));
                                BodySettle 0])
    = <["token" := "T1"]> ∅ /\
  text_of "message" (run login_page [ClickLogin;
                                     FetchSettle 0 (Some unauthorized)])
    = Some login_failed_message.
Proof.
  split.
  - destruct (login_stores_token_or_reports login_page (token_response "T1")
                login_page_has_form) as (_ & Hyes & _).
    apply (Hyes [("access_token", JStr "T1")] "T1"); reflexivity.
  - destruct (login_stores_token_or_reports login_page unauthorized
                login_page_has_form) as (_ & _ & Hno).
    apply Hno; [reflexivity | by eexists].
Defined.

Lemma storage_written_by_login_and_logout_only_witness :
  localStorage (run dashboard
                  [Tick; ClickStart; FetchSettle 0 (Some (snapshot 50 1 2));
                   ClickReturn; BodySettle 0; Tick; FetchSettle 3 None])
    = {["token" := "T0"]}.
Proof.
  destruct (@storage_written_by_login_and_logout_only Z _ _)
    as (_ & _ & _ & _ & _ & _ & Hrun).
  apply (Hrun dashboard).
  - intros i a Hp. change (pending dashboard) with (∅ : gmap nat (Await Z)) in Hp.
    by rewrite lookup_empty in Hp.
  - repeat constructor.
Defined.


Lemma dashboard_has_fields (s : State Z) :
  document s = document dashboard -> has_fields s.
Proof. intros Hd. unfold has_fields. rewrite Hd. split; by eexists. Defined.





Lemma poll_ignores_status_witness :
  poll dashboard (Some unauthorized)
    = poll dashboard
        (Some {| status := 200%Z;
                 json := Some (JObj [("detail", JStr "Not authenticated")]) |}).
Proof. apply (poll_ignores_status dashboard). reflexivity. Defined.

Lemma position_text_after_poll_witness :
  text_of "position" (poll dashboard (Some (snapshot 50 1 2))) = Some "1, 2".
Proof.
  exact (position_text_after_poll dashboard (snapshot 50 1 2)
           [("battery", JNum 50%Z); ("lat", JNum 1%Z); ("lon", JNum 2%Z)]
           "50" 1%Z 2%Z (dashboard_has_fields dashboard eq_refl)
           eq_refl eq_refl eq_refl eq_refl).
Defined.

Lemma battery_text_edge_cases_witness :
  text_of "battery" (poll dashboard (Some unauthorized)) = Some "undefined" /\
  text_of "battery"
    (poll dashboard
       (Some {| status := 200%Z; json := Some (JArr [JNum 1%Z]) |}))
    = Some "undefined".
Proof.
  split.
  - destruct (battery_text_edge_cases dashboard unauthorized
                (ex_intro _ (text_element "87") eq_refl)) as (Hmiss & _).
    apply (Hmiss [("detail", JStr "Not authenticated")]); reflexivity.
  - destruct (battery_text_edge_cases dashboard
                {| status := 200%Z; json := Some (JArr [JNum 1%Z]) |}
                (ex_intro _ (text_element "87") eq_refl)) as (_ & Hother & _).
    apply (Hother (JArr [JNum 1%Z])); [reflexivity | done | done | done].
Defined.

Lemma refused_coordinates_leave_no_marker_witness :
  text_of "battery" (poll dashboard (Some battery_only)) = Some "50" /\
  text_of "position" (poll dashboard (Some battery_only))
    = Some "undefined, undefined" /\
  map_layers (poll dashboard (Some battery_only)) = [tile_layer 0] /\
  marker (poll dashboard (Some battery_only))
    = Some {| stamp := 1; kind := Marker 37%Z 127%Z |}.
Proof.
  destruct (@refused_coordinates_leave_no_marker Z Z_number Z_leaflet
              dashboard battery_only
              [("battery", JNum 50%Z)] "50" "undefined" "undefined"
              (dashboard_has_fields dashboard eq_refl)
              eq_refl eq_refl eq_refl eq_refl eq_refl)
    as (Hb & Hp & Hl & Hm & _).
  split; [exact Hb |]. split; [exact Hp |]. split; [exact Hl | exact Hm].
Defined.

Lemma login_failure_without_message_witness :
  document (run login_page [ClickLogin; FetchSettle 0 None; BodySettle 0])
    = document login_page /\
  localStorage (run login_page [ClickLogin; FetchSettle 0 None; BodySettle 0])
    = localStorage login_page /\
  location (run login_page [ClickLogin; FetchSettle 0 None; BodySettle 0])
    = location login_page /\
  exists err,
    unhandled (run login_page [ClickLogin; FetchSettle 0 None; BodySettle 0])
      = unhandled login_page ++ [err].
Proof.
  apply (login_failure_without_message login_page None login_page_has_form).
  by left.
Defined.

Lemma login_token_edge_cases_witness :
  localStorage
    (run login_page
       [ClickLogin;
        FetchSettle 0 (Some {| status := 200%Z;
                               json := Some (JObj [("token", JStr "T1")]) |});
        BodySettle 0])
    = <["token" := "undefined"]> ∅.
Proof.
  destruct (@login_token_edge_cases Z Z_number Z_leaflet login_page
              {| status := 200%Z;
                 json := Some (JObj [("token", JStr "T1")]) |}
              [("token", JStr "T1")]
              login_page_has_form eq_refl eq_refl) as (Hmiss & _).
  by destruct (Hmiss eq_refl) as [Hls _].
Defined.

Lemma dashboard_has_no_login_form : ~ has_login_form dashboard.
Proof. intros ([eu Hu] & _). done. Defined.

Lemma login_needs_the_form_witness :
  (exists el entries,
     document login_page !! "login-form" = Some el /\
     form_data el = Some entries /\
     step login_page ClickLogin
       = with_pending <[0 := AwaitFetch LoginSubmit]>
           (with_requests
              (fun l => l ++ [ {| method := POST;
                                  url := API_URL +:+ "/login";
                                  headers := [];
                                  form_body := Some entries |} ])
              login_page)) /\
  step dashboard ClickLogin
    = with_unhandled (fun l => l ++ [TypeError]) dashboard.
Proof.
  split.
  - destruct (login_needs_the_form login_page) as [Hyes _].
    exact (Hyes login_page_has_form).
  - destruct (login_needs_the_form dashboard) as [_ Hno].
    exact (Hno dashboard_has_no_login_form).
Defined.

Lemma token_round_trip_witness :
  (exists req,
     requests (step (run login_page [ClickLogin;
                                     FetchSettle 0 (Some (token_response "T1"));
                                     BodySettle 0]) ClickStart)
       = requests (run login_page [ClickLogin;
                                   FetchSettle 0 (Some (token_response "T1"));
                                   BodySettle 0]) ++ [req] /\
     headers req = [("Authorization", "Bearer T1")]) /\
  (exists req,
     requests (step (step (run login_page
                             [ClickLogin;
                              FetchSettle 0 (Some (token_response "T1"));
                              BodySettle 0]) ClickLogout) ClickStart)
       = requests (run login_page [ClickLogin;
                                   FetchSettle 0 (Some (token_response "T1"));
                                   BodySettle 0]) ++ [req] /\
     headers req = [("Authorization", "Bearer null")]).
Proof.
  exact (@token_round_trip Z Z_number Z_leaflet login_page
           (token_response "T1") [("access_token", JStr "T1")] "T1" ClickStart
           login_page_has_form eq_refl eq_refl eq_refl eq_refl).
Defined.

Lemma second_login_overwrites_token_witness :
  localStorage
    (run (run login_page [ClickLogin;
                          FetchSettle 0 (Some (token_response "T1"));
                          BodySettle 0])
         [ClickLogin; FetchSettle 1 (Some (token_response "T2"));
          BodySettle 1])
    = <["token" := "T2"]> ∅.
Proof.
  exact (@second_login_overwrites_token Z Z_number Z_leaflet login_page
           (token_response "T1") (token_response "T2")
           [("access_token", JStr "T1")] [("access_token", JStr "T2")]
           "T1" "T2" login_page_has_form
           eq_refl eq_refl eq_refl eq_refl eq_refl eq_refl).
Defined.

Lemma storage_other_keys_untouched_witness :
  localStorage (run login_page [ClickLogin;
                                FetchSettle 0 (Some (token_response "T1"));
                                BodySettle 0; Tick; ClickLogout]) !! "theme"
    = localStorage login_page !! "theme".
Proof.
  apply (@storage_other_keys_untouched Z Z_number Z_leaflet). done.
Defined.

Lemma navigation_only_by_login_and_logout_witness :
  location (run dashboard
              [Tick; ClickStart; FetchSettle 0 (Some unauthorized);
               BodySettle 0; ClickReturn; FetchSettle 1 None])
    = location dashboard.
Proof.
  destruct (@navigation_only_by_login_and_logout Z Z_number Z_leaflet)
    as [_ Hrun].
  apply Hrun.
  - intros i a Hp. change (pending dashboard) with (∅ : gmap nat (Await Z)) in Hp.
    by rewrite lookup_empty in Hp.
  - repeat constructor.
Defined.


Lemma requests_counted_witness :
  length (requests (run dashboard
                      [Tick; Tick; FetchSettle 0 None; ClickStart;
                       FetchSettle 1 (Some unauthorized); BodySettle 1;
                       ClickLogout]))
    = 3.
Proof.
  apply (@requests_counted Z Z_number Z_leaflet
           [Tick; Tick; FetchSettle 0 None; ClickStart;
            FetchSettle 1 (Some unauthorized); BodySettle 1; ClickLogout]
           dashboard).
  repeat constructor; done.
Defined.



Lemma display_changes_only_when_a_poll_body_settles_witness :
  text_of "battery"
    (run dashboard [Tick; FetchSettle 0 (Some unauthorized); ClickStart;
                    ClickLogout; Tick; FetchSettle 2 None])
    = text_of "battery" dashboard /\
  text_of "position"
    (run dashboard [Tick; FetchSettle 0 (Some unauthorized); ClickStart;
                    ClickLogout; Tick; FetchSettle 2 None])
    = text_of "position" dashboard /\
  map_layers
    (run dashboard [Tick; FetchSettle 0 (Some unauthorized); ClickStart;
                    ClickLogout; Tick; FetchSettle 2 None])
    = map_layers dashboard /\
  marker
    (run dashboard [Tick; FetchSettle 0 (Some unauthorized); ClickStart;
                    ClickLogout; Tick; FetchSettle 2 None])
    = marker dashboard.
Proof.
  destruct (@display_changes_only_when_a_poll_body_settles Z Z_number
              Z_leaflet) as [_ Hrun].
  apply Hrun. repeat constructor; done.
Defined.

Lemma page_load_polls_at_once_witness :
  exists s1,
    main_js dashboard = (s1, inr tt) /\
    map_layers s1 = [tile_layer 2] /\
    marker s1 = None /\
    requests s1
      = [ {| method := GET; url := status_url;
             headers := [("Authorization", "Bearer T0")];
             form_body := None |} ].
Proof.
  destruct (page_load_polls_at_once dashboard) as [Hload _].
  destruct (Hload (ex_intro _ (text_element EmptyString) eq_refl))
    as (s1 & Hmain & Hl & Hm & Hreq & _).
  exists s1. split; [exact Hmain |]. split; [exact Hl |].
  split; [exact Hm | exact Hreq].
Defined.
